(** * sdapi: a typed client for the Script Debugger API

    A shallow embedding of [src/sdapi.ts] and [src/fault.ts]: the fault
    translator [axiosErrorToFault], the fault table [Faults], the client
    constructor and its eighteen operations, over a small model of the
    JavaScript values and of the axios instance they run on. *)

From Stdlib Require Import Ascii.
From stdpp Require Import gmap strings list fin_maps pretty.

Set Warnings "-register-all".
Local Open Scope string_scope.
Local Open Scope Z_scope.

(** ** JavaScript values

    What [JSON.parse] can put in a response body, plus [undefined].  Numbers
    are the integer-valued doubles (thread ids, frame indexes, page offsets,
    status codes), carried as [Z]; an integer that no double equals stands for
    the double nearest to it, as a numeric literal or [JSON.parse] reads it.
    Fractions, [NaN], the infinities and [-0] are not values of this model. *)

Inductive value : Type :=
| VUndefined
| VNull
| VBool (b : bool)
| VNum (n : Z)
| VStr (s : string)
| VArr (elems : list value)
| VObj (props : gmap string value).

(** The double nearest to a non-negative integer, ties going to the even
    significand of 53 bits.  Below [2 ^ 53] every integer is a double. *)
Definition double_of_integer (a : Z) : Z :=
  if a <? 2 ^ 53 then a
  else
    let e := Z.log2 a - 52 in
    let q := a / 2 ^ e in
    let r := a mod 2 ^ e in
    let half := 2 ^ (e - 1) in
    let q' := if (half <? r) || ((r =? half) && Z.odd q) then q + 1 else q in
    q' * 2 ^ e.

(** The integer with the fewest significant digits that still reads back as
    the double [x]: for [k] = 1, 2, ... the two multiples of
    [10 ^ (digits - k)] around [x] are tried, and of two that both read back
    as [x] the nearer one is taken.  Seventeen digits always suffice. *)
Fixpoint shortest_digits (fuel : nat) (k : Z) (x digits : Z) : Z :=
  match fuel with
  | O => x
  | S fuel' =>
      if digits <=? k then x
      else
        let p := 10 ^ (digits - k) in
        let below := x / p * p in
        let above := below + p in
        let ok_below := double_of_integer below =? x in
        let ok_above := double_of_integer above =? x in
        if ok_below && ok_above then
          if x - below <? above - x then below
          else if above - x <? x - below then above
          else if Z.even (x / p) then below else above
        else if ok_below then below
        else if ok_above then above
        else shortest_digits fuel' (k + 1) x digits
  end.

Fixpoint drop_zeros (s : string) : string :=
  match s with
  | String "0" s' => drop_zeros s'
  | _ => s
  end.

(** [d.ddd...e+n] for a run of more than 21 digits. *)
Definition exponent_form (s : string) : string :=
  let n := Z.of_nat (String.length s) in
  match String.rev (drop_zeros (String.rev s)) with
  | EmptyString => s
  | String d EmptyString => String d ("e+" +:+ pretty (n - 1))
  | String d ds => String d ("." +:+ ds +:+ "e+" +:+ pretty (n - 1))
  end.

(** [Number::toString] from [2 ^ 53] on: the shortest digits that read back
    as the double, followed by zeros up to 21 digits and in exponent form
    beyond; what rounds past the largest double prints as [Infinity]. *)
Definition Number_toString_large (a : Z) : string :=
  let x := double_of_integer a in
  if 2 ^ 1024 <=? x then "Infinity"
  else
    let v := shortest_digits 17 1 x (Z.of_nat (String.length (pretty x))) in
    let s := pretty v in
    if (String.length s <=? 21)%nat then s else exponent_form s.

(** [Number::toString] on an integer.  Below [2 ^ 53] in magnitude it is the
    decimal digits with a sign: no shorter run of digits reads back as the
    same number there. *)
Definition Number_toString (n : Z) : string :=
  if Z.abs n <? 2 ^ 53 then pretty n
  else if n <? 0 then "-" +:+ Number_toString_large (Z.abs n)
  else Number_toString_large n.

(** [ToString].  A parsed array joins its elements with commas, [null] and
    [undefined] elements printing as nothing.  A parsed object prints through
    [Object.prototype.toString], unless an own [toString] entry (which is data,
    never callable) shadows it: then neither [toString] nor the inherited
    [valueOf] yields a primitive and the conversion throws, here [None]. *)
Fixpoint ToString (v : value) : option string :=
  match v with
  | VUndefined => Some "undefined"
  | VNull => Some "null"
  | VBool true => Some "true"
  | VBool false => Some "false"
  | VNum n => Some (Number_toString n)
  | VStr s => Some s
  | VArr elems =>
      let fix join (l : list value) : option string :=
        match l with
        | [] => Some EmptyString
        | e :: l' =>
            match (match e with
                   | VUndefined | VNull => Some EmptyString
                   | _ => ToString e
                   end), join l' with
            | Some s, Some rest =>
                Some (match l' with [] => s | _ => s +:+ "," +:+ rest end)
            | _, _ => None
            end
        end in
      join elems
  | VObj props =>
      match props !! "toString" with
      | Some _ => None
      | None => Some "[object Object]"
      end
  end.

(** [v?.k] for a name [k] that no built-in prototype defines ([fault], [type]
    and [message] are such names): only an own entry of a parsed object
    can answer; [undefined] and [null] short-circuit, every other value has no
    such property. *)
Definition optional_member (v : value) (k : string) : value :=
  match v with
  | VObj props => default VUndefined (props !! k)
  | _ => VUndefined
  end.

(** [ToBoolean], the test of [if (v)]. *)
Definition truthy (v : value) : bool :=
  match v with
  | VUndefined | VNull => false
  | VBool b => b
  | VNum n => negb (n =? 0)
  | VStr s => negb (String.eqb s EmptyString)
  | VArr _ | VObj _ => true
  end.

(** An optional string parameter: the argument, or [undefined] when the
    caller passes none. *)
Definition optional_string (s : option string) : value :=
  from_option VStr VUndefined s.

(** ** The transport's data (axios) *)

Record AxiosResponse : Type := {
  status : Z;
  statusText : string;
  response_headers : gmap string value;
  data : value;
}.

Record AxiosError : Type := {
  error_message : string;
  code : option string;
  response : option AxiosResponse;
}.

(** ** fault.ts *)

Inductive FaultClass : Type :=
| NotAuthorizedException
| ClientIdRequiredException
| DebuggerDisabledException
| InvalidScriptPathException
| InvalidScriptFileException
| BreakpointNotFoundException
| ScriptThreadNotFoundException
| InvalidFrameIndexException.

(** The own properties of the object literal [Faults] (shorthand properties:
    each key is the class name). *)
Definition Faults : gmap string FaultClass :=
  list_to_map
    [ ("NotAuthorizedException", NotAuthorizedException);
      ("ClientIdRequiredException", ClientIdRequiredException);
      ("DebuggerDisabledException", DebuggerDisabledException);
      ("InvalidScriptPathException", InvalidScriptPathException);
      ("InvalidScriptFileException", InvalidScriptFileException);
      ("BreakpointNotFoundException", BreakpointNotFoundException);
      ("ScriptThreadNotFoundException", ScriptThreadNotFoundException);
      ("InvalidFrameIndexException", InvalidFrameIndexException) ].

(** The discriminator under which a class is filed. *)
Definition discriminator (c : FaultClass) : string :=
  match c with
  | NotAuthorizedException => "NotAuthorizedException"
  | ClientIdRequiredException => "ClientIdRequiredException"
  | DebuggerDisabledException => "DebuggerDisabledException"
  | InvalidScriptPathException => "InvalidScriptPathException"
  | InvalidScriptFileException => "InvalidScriptFileException"
  | BreakpointNotFoundException => "BreakpointNotFoundException"
  | ScriptThreadNotFoundException => "ScriptThreadNotFoundException"
  | InvalidFrameIndexException => "InvalidFrameIndexException"
  end.

(** [Faults] is an ordinary object: a property read that finds no own entry
    goes on to [Object.prototype].  What it finds there: the constructor
    [Object], the prototype's methods (functions that cannot be constructed),
    and, through the [__proto__] getter, [Object.prototype] itself. *)
Inductive builtin : Type :=
| ObjectConstructor
| PrototypeMethod
| PrototypeObject.

Definition Object_prototype : gmap string builtin :=
  list_to_map
    [ ("constructor", ObjectConstructor);
      ("hasOwnProperty", PrototypeMethod);
      ("isPrototypeOf", PrototypeMethod);
      ("propertyIsEnumerable", PrototypeMethod);
      ("toLocaleString", PrototypeMethod);
      ("toString", PrototypeMethod);
      ("valueOf", PrototypeMethod);
      ("__defineGetter__", PrototypeMethod);
      ("__defineSetter__", PrototypeMethod);
      ("__lookupGetter__", PrototypeMethod);
      ("__lookupSetter__", PrototypeMethod);
      ("__proto__", PrototypeObject) ].

Inductive property : Type :=
| Own (c : FaultClass)
| Inherited (b : builtin).

(** [Faults[k]]; [None] is [undefined]. *)
Definition Faults_get (k : string) : option property :=
  match Faults !! k with
  | Some c => Some (Own c)
  | None => Inherited <$> Object_prototype !! k
  end.

(** ** What a promise can be rejected with

    The error of the transport as it came, an instance of a fault class with
    its [message], the object [new Object(v)] makes of [v], or a
    [TypeError]. *)

Inductive thrown : Type :=
| TransportError (e : AxiosError)
| FaultError (c : FaultClass) (message : string)
| ObjectWrapper (v : value)
| TypeError (message : string).

Inductive completion (A : Type) : Type :=
| Return (a : A)
| Throw (t : thrown).
Arguments Return {A} a.
Arguments Throw {A} t.

Inductive promise (A : Type) : Type :=
| Fulfilled (a : A)
| Rejected (t : thrown)
| Pending.
Arguments Fulfilled {A} a.
Arguments Rejected {A} t.
Arguments Pending {A}.

(** [p.then(f)] with an [f] that cannot throw. *)
Definition promise_then {A B : Type} (f : A → B) (p : promise A) : promise B :=
  match p with
  | Fulfilled a => Fulfilled (f a)
  | Rejected t => Rejected t
  | Pending => Pending
  end.

(** [new Fault(message)].  A fault class has the constructor of [Error]: an
    [undefined] argument leaves the message to the prototype's empty string,
    anything else is converted with [ToString].  [new Object(v)] wraps [v];
    the other inherited properties are not constructors. *)
Definition construct (Fault : property) (message : value) : completion thrown :=
  match Fault with
  | Own c =>
      match message with
      | VUndefined => Return (FaultError c EmptyString)
      | _ =>
          match ToString message with
          | Some s => Return (FaultError c s)
          | None => Throw (TypeError "Cannot convert object to primitive value")
          end
      end
  | Inherited ObjectConstructor => Return (ObjectWrapper message)
  | Inherited _ => Throw (TypeError "Fault is not a constructor")
  end.

(** ** sdapi.ts: the fault translator *)

(** [error.response?.data?.fault] *)
Definition fault_of (error : AxiosError) : value :=
  match error.(response) with
  | None => VUndefined
  | Some r => optional_member r.(data) "fault"
  end.

Definition axiosErrorToFault {A : Type} (error : AxiosError)
  : completion (promise A) :=
  match ToString (optional_member (fault_of error) "type") with
  | None => Throw (TypeError "Cannot convert object to primitive value")
  | Some key =>
      match Faults_get key with
      | None => Return (Rejected (TransportError error))
      | Some Fault =>
          match construct Fault (optional_member (fault_of error) "message") with
          | Return e => Return (Rejected e)
          | Throw t => Throw t
          end
      end
  end.

(** ** The axios instance *)

Inductive Method : Type := GET | POST | DELETE.

Record BasicCredentials : Type := {
  auth_username : string;
  auth_password : string;
}.

(** What [axios.create] is given and the instance keeps as its defaults. *)
Record AxiosDefaults : Type := {
  baseURL : string;
  auth : BasicCredentials;
  headers : gmap string value;
}.

(** What one call adds: [http.get(url, { params })], [http.post(url, data)],
    [http.delete(url)]. *)
Record AxiosRequestConfig : Type := {
  method : Method;
  url : string;
  params : option (gmap string value);
  body : option value;
}.

(** The merged configuration the adapter is handed. *)
Record Request : Type := {
  defaults_of : AxiosDefaults;
  config_of : AxiosRequestConfig;
}.

(** One [interceptors.response.use(onFulfilled, onRejected)] registration. *)
Record Interceptor : Type := {
  onFulfilled : AxiosResponse → AxiosResponse;
  onRejected : AxiosError → completion (promise AxiosResponse);
}.

Record AxiosInstance : Type := {
  defaults : AxiosDefaults;
  interceptors_response : option Interceptor;
}.

(** How the adapter's promise for one request settles: axios resolves it with
    the response when the status passes [validateStatus], rejects it with an
    [AxiosError] otherwise (the error carries the response, if there was one),
    and a request that is never answered leaves it pending. *)
Inductive outcome : Type :=
| Replied (res : AxiosResponse)
| Failed (e : AxiosError)
| Unanswered.

(** [promise.then(onFulfilled, onRejected)] on the adapter's promise: a
    handler that throws rejects the derived promise; a handler that returns a
    promise is followed.  Without a registration the promise is left as it
    is. *)
Definition intercept (i : option Interceptor) (o : outcome)
  : promise AxiosResponse :=
  match o with
  | Replied res =>
      Fulfilled (match i with Some h => h.(onFulfilled) res | None => res end)
  | Failed e =>
      match i with
      | Some h =>
          match h.(onRejected) e with
          | Return q => q
          | Throw t => Rejected t
          end
      | None => Rejected (TransportError e)
      end
  | Unanswered => Pending
  end.

(** ** breakpoint.ts: the one payload a caller sends *)

Record Breakpoint : Type := {
  condition : option string;
  line_number : Z;
  script_path : string;
}.

Record Breakpoints : Type := {
  breakpoints : list Breakpoint;
}.

Definition Breakpoint_value (b : Breakpoint) : value :=
  let fields : gmap string value :=
    {[ "line_number" := VNum b.(line_number);
       "script_path" := VStr b.(script_path) ]} in
  VObj match b.(condition) with
       | Some c => <["condition" := VStr c]> fields
       | None => fields
       end.

Definition Breakpoints_value (bs : Breakpoints) : value :=
  VObj {[ "breakpoints" := VArr (Breakpoint_value <$> bs.(breakpoints)) ]}.

(** ** The client object and its methods

    A method runs against [this], may assign to it, and puts requests on the
    wire: a state monad over the [SDAPI] object with a log of the requests
    handed to the adapter. *)

Record Config : Type := {
  hostname : string;
  username : string;
  password : string;
  clientId : string;
}.

Record SDAPI : Type := {
  http : AxiosInstance;
}.

Definition M (A : Type) : Type := SDAPI → A * SDAPI * list Request.

Definition ret {A : Type} (a : A) : M A := λ this, (a, this, []).

Definition bind {A B : Type} (m : M A) (k : A → M B) : M B :=
  λ this,
    let '(a, this1, sent1) := m this in
    let '(b, this2, sent2) := k a this1 in
    (b, this2, (sent1 ++ sent2)%list).

Definition read_this : M SDAPI := λ this, (this, this, []).

Definition result {A : Type} (r : A * SDAPI * list Request) : A := r.1.1.
Definition this_after {A : Type} (r : A * SDAPI * list Request) : SDAPI := r.1.2.
Definition wire {A : Type} (r : A * SDAPI * list Request) : list Request := r.2.

Declare Scope method_scope.
Delimit Scope method_scope with method.
Notation "'let*' x ':=' m 'in' k" := (bind m (λ x, k))
  (at level 10, x name, m at level 100, k at level 200) : method_scope.
Local Open Scope method_scope.

(** [new SDAPI(config)] *)
Definition axios_create (library_headers : gmap string value)
    (d : AxiosDefaults) : AxiosInstance :=
  {| defaults :=
       {| baseURL := d.(baseURL);
          auth := d.(auth);
          headers := d.(headers) ∪ library_headers |};
     interceptors_response := None |}.

Definition use (h : Interceptor) (inst : AxiosInstance) : AxiosInstance :=
  {| defaults := inst.(defaults); interceptors_response := Some h |}.

Definition constructor (library_headers : gmap string value) (config : Config)
  : SDAPI :=
  {| http :=
       use {| onFulfilled := λ res, res; onRejected := axiosErrorToFault |}
         (axios_create library_headers
            {| baseURL := "https://" +:+ config.(hostname) +:+ "/s/-/dw/debugger/v2_0";
               auth := {| auth_username := config.(username);
                          auth_password := config.(password) |};
               headers := {[ "x-dw-client-id" := VStr config.(clientId) ]} |}) |}.

Section Client.

(** The network, as the one adapter call of a request sees it. *)
Variable adapter : Request → outcome.

Definition request (inst : AxiosInstance) (c : AxiosRequestConfig)
  : M (promise AxiosResponse) :=
  λ this,
    let r := {| defaults_of := inst.(defaults); config_of := c |} in
    (intercept inst.(interceptors_response) (adapter r), this, [r]).

Definition http_get (inst : AxiosInstance) (u : string)
    (p : option (gmap string value)) : M (promise AxiosResponse) :=
  request inst {| method := GET; url := u; params := p; body := None |}.

Definition http_post (inst : AxiosInstance) (u : string) (d : option value)
  : M (promise AxiosResponse) :=
  request inst {| method := POST; url := u; params := None; body := d |}.

Definition http_delete (inst : AxiosInstance) (u : string)
  : M (promise AxiosResponse) :=
  request inst {| method := DELETE; url := u; params := None; body := None |}.

(** *** The operations of [class SDAPI] *)

Definition createClient : M (promise AxiosResponse) :=
  let* this := read_this in
  http_post this.(http) "/client" None.

Definition deleteClient : M (promise AxiosResponse) :=
  let* this := read_this in
  http_delete this.(http) "/client".

Definition getBreakpoints : M (promise value) :=
  let* this := read_this in
  let* p := http_get this.(http) "/breakpoints" None in
  ret (promise_then data p).

Definition createBreakpoints (breakpoints : Breakpoints) : M (promise value) :=
  let* this := read_this in
  let* p := http_post this.(http) "/breakpoints"
              (Some (Breakpoints_value breakpoints)) in
  ret (promise_then data p).

Definition removeBreakpoints : M (promise AxiosResponse) :=
  let* this := read_this in
  http_delete this.(http) "/breakpoints".

Definition getBreakpoint (id : Z) : M (promise value) :=
  let* this := read_this in
  let* p := http_get this.(http) ("/breakpoints/" +:+ Number_toString id) None in
  ret (promise_then data p).

Definition removeBreakpoint (id : Z) : M (promise AxiosResponse) :=
  let* this := read_this in
  http_delete this.(http) ("/breakpoints/" +:+ Number_toString id).

Definition getScriptThreads : M (promise value) :=
  let* this := read_this in
  let* p := http_get this.(http) "/threads" None in
  ret (promise_then data p).

Definition resetScriptThreads : M (promise AxiosResponse) :=
  let* this := read_this in
  http_post this.(http) "/threads/reset" None.

Definition getScriptThread (id : Z) : M (promise value) :=
  let* this := read_this in
  let* p := http_get this.(http) ("/threads/" +:+ Number_toString id) None in
  ret (promise_then data p).

Definition evaluateExpression (threadId frameIndex : Z) (expr : string)
  : M (promise value) :=
  let* this := read_this in
  let* p := http_get this.(http)
              ("/threads/" +:+ Number_toString threadId +:+ "/frames/"
                 +:+ Number_toString frameIndex +:+ "/eval")
              (Some {[ "expr" := VStr expr ]}) in
  ret (promise_then data p).

(** [objectPath?], [start = 0], [count = 200]: [None] is an argument left
    out (or passed as [undefined]). *)
Definition getObjectMembers (threadId frameIndex : Z)
    (objectPath : option string) (start count : option Z)
  : M (promise value) :=
  let start := default 0 start in
  let count := default 200 count in
  let params : gmap string value :=
    {[ "start" := VNum start; "count" := VNum count ]} in
  let params :=
    if truthy (optional_string objectPath)
    then <["object_path" := optional_string objectPath]> params
    else params in
  let* this := read_this in
  let* p := http_get this.(http)
              ("/threads/" +:+ Number_toString threadId +:+ "/frames/"
                 +:+ Number_toString frameIndex +:+ "/members")
              (Some params) in
  ret (promise_then data p).

Definition getVariables (threadId frameIndex : Z) (start count : option Z)
  : M (promise value) :=
  let start := default 0 start in
  let count := default 200 count in
  let* this := read_this in
  let* p := http_get this.(http)
              ("/threads/" +:+ Number_toString threadId +:+ "/frames/"
                 +:+ Number_toString frameIndex +:+ "/variables")
              (Some {[ "start" := VNum start; "count" := VNum count ]}) in
  ret (promise_then data p).

(** ['into' | 'out' | 'over' | 'resume' | 'stop'] *)
Inductive Action : Type := Into | Out | Over | Resume | Stop.

Definition Action_literal (a : Action) : string :=
  match a with
  | Into => "into"
  | Out => "out"
  | Over => "over"
  | Resume => "resume"
  | Stop => "stop"
  end.

Definition step (threadId : Z) (action : Action) : M (promise value) :=
  let* this := read_this in
  let* p := http_post this.(http)
              ("/threads/" +:+ Number_toString threadId +:+ "/"
                 +:+ Action_literal action) None in
  ret (promise_then data p).

Definition stepInto (threadId : Z) : M (promise value) := step threadId Into.
Definition stepOut (threadId : Z) : M (promise value) := step threadId Out.
Definition stepOver (threadId : Z) : M (promise value) := step threadId Over.
Definition stepResume (threadId : Z) : M (promise value) := step threadId Resume.
Definition stepStop (threadId : Z) : M (promise value) := step threadId Stop.

(** *** A call of any of the eighteen, and what its promise settles to *)

Inductive call : Type :=
| CreateClient
| DeleteClient
| GetBreakpoints
| CreateBreakpoints (breakpoints : Breakpoints)
| RemoveBreakpoints
| GetBreakpoint (id : Z)
| RemoveBreakpoint (id : Z)
| GetScriptThreads
| ResetScriptThreads
| GetScriptThread (id : Z)
| EvaluateExpression (threadId frameIndex : Z) (expr : string)
| GetObjectMembers (threadId frameIndex : Z) (objectPath : option string)
    (start count : option Z)
| GetVariables (threadId frameIndex : Z) (start count : option Z)
| StepInto (threadId : Z)
| StepOut (threadId : Z)
| StepOver (threadId : Z)
| StepResume (threadId : Z)
| StepStop (threadId : Z).

(** The value a caller gets on success: the whole axios response, or the
    body taken out of it. *)
Inductive settled : Type :=
| Envelope (res : AxiosResponse)
| Payload (v : value).

Definition enveloped (m : M (promise AxiosResponse)) : M (promise settled) :=
  let* p := m in ret (promise_then Envelope p).

Definition unwrapped (m : M (promise value)) : M (promise settled) :=
  let* p := m in ret (promise_then Payload p).

Definition invoke (c : call) : M (promise settled) :=
  match c with
  | CreateClient => enveloped createClient
  | DeleteClient => enveloped deleteClient
  | GetBreakpoints => unwrapped getBreakpoints
  | CreateBreakpoints b => unwrapped (createBreakpoints b)
  | RemoveBreakpoints => enveloped removeBreakpoints
  | GetBreakpoint id => unwrapped (getBreakpoint id)
  | RemoveBreakpoint id => enveloped (removeBreakpoint id)
  | GetScriptThreads => unwrapped getScriptThreads
  | ResetScriptThreads => enveloped resetScriptThreads
  | GetScriptThread id => unwrapped (getScriptThread id)
  | EvaluateExpression t f e => unwrapped (evaluateExpression t f e)
  | GetObjectMembers t f o s c => unwrapped (getObjectMembers t f o s c)
  | GetVariables t f s c => unwrapped (getVariables t f s c)
  | StepInto t => unwrapped (stepInto t)
  | StepOut t => unwrapped (stepOut t)
  | StepOver t => unwrapped (stepOver t)
  | StepResume t => unwrapped (stepResume t)
  | StepStop t => unwrapped (stepStop t)
  end.

(** The operations whose body ends in [.then(res => res.data)]. *)
Definition returns_payload (c : call) : bool :=
  match c with
  | CreateClient | DeleteClient | RemoveBreakpoints | RemoveBreakpoint _
  | ResetScriptThreads => false
  | _ => true
  end.

End Client.

(** * Properties *)

(** The test suite's fixtures. *)
Definition mockConfig : Config :=
  {| hostname := "localhost"; username := "username";
     password := "password"; clientId := "TestSDAPI" |}.

Definition faultResponse (type message : string) : value :=
  VObj {[ "_v" := VStr "2.0";
          "fault" := VObj {[ "type" := VStr type; "message" := VStr message ]} ]}.

(** A reply of the mock adapter, and the error axios settles it as when the
    status fails [validateStatus]. *)
Definition reply (status_code : Z) (body : value) : AxiosResponse :=
  {| status := status_code; statusText := EmptyString;
     response_headers := ∅; data := body |}.

Definition reply_error (status_code : Z) (body : value) : AxiosError :=
  {| error_message :=
       "Request failed with status code " +:+ Number_toString status_code;
     code := None;
     response := Some (reply status_code body) |}.

(** The query parameters of the requests a method run has sent. *)
Definition sent_params {A : Type} (r : A * SDAPI * list Request)
  : list (option (gmap string value)) :=
  (λ q, q.(config_of).(params)) <$> wire r.

(** The step operation of an action. *)
Definition step_operation (adapter : Request → outcome) (a : Action)
  : Z → M (promise value) :=
  match a with
  | Into => stepInto adapter
  | Out => stepOut adapter
  | Over => stepOver adapter
  | Resume => stepResume adapter
  | Stop => stepStop adapter
  end.

(** The client object after a sequence of calls. *)
Fixpoint after_calls (adapter : Request → outcome) (cs : list call)
    (this : SDAPI) : SDAPI :=
  match cs with
  | [] => this
  | c :: cs' => after_calls adapter cs' (this_after (invoke adapter c this))
  end.

(** The reading of the request-builder under which only an absent
    [objectPath] leaves [object_path] out. *)
Definition omits_object_path_only_when_absent : Prop :=
  ∀ (adapter : Request → outcome) (this : SDAPI) (threadId frameIndex : Z)
    (objectPath : option string) (start count : option Z)
    (p : gmap string value),
    sent_params (getObjectMembers adapter threadId frameIndex objectPath
                   start count this) = [Some p] →
    p !! "object_path" = None →
    objectPath = None.

(** What a step operation is to do with a path: send one POST to it, with
    neither parameters nor body, and resolve to the body of the response that
    answers it. *)
Definition posts_and_unwraps (adapter : Request → outcome) (this : SDAPI)
    (operation : M (promise value)) (path : string) : Prop :=
  let r := {| defaults_of := this.(http).(defaults);
              config_of := {| method := POST; url := path;
                              params := None; body := None |} |} in
  wire (operation this) = [r]
  ∧ ∀ res : AxiosResponse,
      adapter r = Replied res → result (operation this) = Fulfilled res.(data).

(** [Number.isSafeInteger]: the integers every one of which is a double and
    prints as its own decimal digits. *)
Definition safe_integer (n : Z) : Prop := Z.abs n < 2 ^ 53.

(** The numbers a call puts into its path. *)
Definition path_numbers (c : call) : list Z :=
  match c with
  | GetBreakpoint id | RemoveBreakpoint id | GetScriptThread id => [id]
  | EvaluateExpression t f _ | GetObjectMembers t f _ _ _
  | GetVariables t f _ _ => [t; f]
  | StepInto t | StepOut t | StepOver t | StepResume t | StepStop t => [t]
  | _ => []
  end.

(** A string without ['/']: one path segment. *)
Fixpoint no_slash (s : string) : Prop :=
  match s with
  | EmptyString => True
  | String a s' => a ≠ "/"%char ∧ no_slash s'
  end.

(** A call with the arguments that do not go into the path left out: the
    operation and the resource it addresses. *)
Definition addressed (c : call) : call :=
  match c with
  | CreateBreakpoints _ => CreateBreakpoints {| breakpoints := [] |}
  | EvaluateExpression t f _ => EvaluateExpression t f EmptyString
  | GetObjectMembers t f _ _ _ => GetObjectMembers t f None None None
  | GetVariables t f _ _ => GetVariables t f None None
  | _ => c
  end.

(** The method and path of the request of each call, read off the eighteen
    method bodies; [invoke_route] checks it against them. *)
Definition route (c : call) : Method * string :=
  match c with
  | CreateClient => (POST, "/client")
  | DeleteClient => (DELETE, "/client")
  | GetBreakpoints => (GET, "/breakpoints")
  | CreateBreakpoints _ => (POST, "/breakpoints")
  | RemoveBreakpoints => (DELETE, "/breakpoints")
  | GetBreakpoint id => (GET, "/breakpoints/" +:+ Number_toString id)
  | RemoveBreakpoint id => (DELETE, "/breakpoints/" +:+ Number_toString id)
  | GetScriptThreads => (GET, "/threads")
  | ResetScriptThreads => (POST, "/threads/reset")
  | GetScriptThread id => (GET, "/threads/" +:+ Number_toString id)
  | EvaluateExpression t f _ =>
      (GET, "/threads/" +:+ Number_toString t +:+ "/frames/"
              +:+ Number_toString f +:+ "/eval")
  | GetObjectMembers t f _ _ _ =>
      (GET, "/threads/" +:+ Number_toString t +:+ "/frames/"
              +:+ Number_toString f +:+ "/members")
  | GetVariables t f _ _ =>
      (GET, "/threads/" +:+ Number_toString t +:+ "/frames/"
              +:+ Number_toString f +:+ "/variables")
  | StepInto t => (POST, "/threads/" +:+ Number_toString t +:+ "/into")
  | StepOut t => (POST, "/threads/" +:+ Number_toString t +:+ "/out")
  | StepOver t => (POST, "/threads/" +:+ Number_toString t +:+ "/over")
  | StepResume t => (POST, "/threads/" +:+ Number_toString t +:+ "/resume")
  | StepStop t => (POST, "/threads/" +:+ Number_toString t +:+ "/stop")
  end.

(** The method and path of the requests a method run has sent. *)
Definition sent_routes {A : Type} (r : A * SDAPI * list Request)
  : list (Method * string) :=
  (λ q, (q.(config_of).(method), q.(config_of).(url))) <$> wire r.

(** ** The fault table *)

Lemma Faults_discriminator (c : FaultClass) : Faults !! discriminator c = Some c.
Proof. by destruct c. Qed.

Lemma Faults_keys :
  dom Faults =
    {[ "NotAuthorizedException"; "ClientIdRequiredException";
       "DebuggerDisabledException"; "InvalidScriptPathException";
       "InvalidScriptFileException"; "BreakpointNotFoundException";
       "ScriptThreadNotFoundException"; "InvalidFrameIndexException" ]}.
Proof. reflexivity. Qed.

Lemma Faults_get_own (k : string) (c : FaultClass) :
  Faults !! k = Some c → Faults_get k = Some (Own c).
Proof. intros H. unfold Faults_get. by rewrite H. Qed.

Lemma Faults_get_undefined (k : string) :
  Faults !! k = None → Object_prototype !! k = None → Faults_get k = None.
Proof. intros H1 H2. unfold Faults_get. by rewrite H1, H2. Qed.

(** ** The fault translator on its own *)

Section Translator.

Context {A : Type}.
Variable error : AxiosError.

Lemma axiosErrorToFault_known (res : AxiosResponse)
    (body fault : gmap string value) (d m : string) (c : FaultClass) :
  error.(response) = Some res →
  res.(data) = VObj body →
  body !! "fault" = Some (VObj fault) →
  fault !! "type" = Some (VStr d) →
  fault !! "message" = Some (VStr m) →
  Faults !! d = Some c →
  axiosErrorToFault (A:=A) error = Return (Rejected (FaultError c m)).
Proof.
  intros Hres Hdata Hfault Htype Hmsg Hkey.
  unfold axiosErrorToFault, fault_of.
  rewrite Hres, Hdata. simpl. rewrite Hfault. simpl.
  rewrite Htype, Hmsg. simpl.
  by rewrite (Faults_get_own _ _ Hkey).
Qed.

(** No [fault.type] to read: the key is ["undefined"], which nothing
    answers to. *)
Lemma axiosErrorToFault_absent :
  optional_member (fault_of error) "type" = VUndefined →
  axiosErrorToFault (A:=A) error = Return (Rejected (TransportError error)).
Proof. intros H. unfold axiosErrorToFault. by rewrite H. Qed.

(** A [fault.type] that neither [Faults] nor [Object.prototype] answers
    to. *)
Lemma axiosErrorToFault_unresolved (k : string) :
  ToString (optional_member (fault_of error) "type") = Some k →
  Faults !! k = None →
  Object_prototype !! k = None →
  axiosErrorToFault (A:=A) error = Return (Rejected (TransportError error)).
Proof.
  intros Hk H1 H2. unfold axiosErrorToFault.
  by rewrite Hk, (Faults_get_undefined _ H1 H2).
Qed.

End Translator.

(** ** One call, one exchange *)

Section Calls.

Variable adapter : Request → outcome.
Variable library_headers : gmap string value.
Variable config : Config.

(** The constructor registers the translator, with the identity on the
    success side. *)
Lemma constructor_interceptor :
  (constructor library_headers config).(http).(interceptors_response)
  = Some {| onFulfilled := λ res, res; onRejected := axiosErrorToFault |}.
Proof. reflexivity. Qed.

(** Every call reads [this], sends one request made of the instance's
    defaults and the call's own configuration, and settles as the
    intercepted answer does, with or without the body taken out. *)
Lemma invoke_exchange (c : call) (s : SDAPI) :
  ∃ q : AxiosRequestConfig,
    let r := {| defaults_of := s.(http).(defaults); config_of := q |} in
    wire (invoke adapter c s) = [r]
    ∧ this_after (invoke adapter c s) = s
    ∧ result (invoke adapter c s)
      = promise_then
          (λ res, if returns_payload c then Payload res.(data) else Envelope res)
          (intercept s.(http).(interceptors_response) (adapter r)).
Proof.
  destruct c; eexists; simpl; (split; [reflexivity|]); (split; [reflexivity|]);
    cbv [result invoke enveloped unwrapped bind ret read_this fst snd
         createClient deleteClient getBreakpoints createBreakpoints
         removeBreakpoints getBreakpoint removeBreakpoint getScriptThreads
         resetScriptThreads getScriptThread evaluateExpression
         getObjectMembers getVariables stepInto stepOut stepOver stepResume
         stepStop step http_get http_post http_delete request returns_payload];
    by destruct (intercept _ _).
Qed.

Lemma invoke_rejected (c : call) (r : Request) (e : AxiosError) (t : thrown) :
  wire (invoke adapter c (constructor library_headers config)) = [r] →
  adapter r = Failed e →
  axiosErrorToFault (A:=AxiosResponse) e = Return (Rejected t) →
  result (invoke adapter c (constructor library_headers config)) = Rejected t.
Proof.
  intros Hw Ha Ht.
  destruct (invoke_exchange c (constructor library_headers config))
    as (q & Hq & _ & Hres).
  cbv zeta in Hq, Hres.
  set (r0 := {| defaults_of := _; config_of := q |}) in Hq, Hres.
  assert (r = r0) as -> by congruence.
  rewrite Hres, Ha. simpl. by rewrite Ht.
Qed.

Lemma invoke_replied (c : call) (r : Request) (res : AxiosResponse) :
  wire (invoke adapter c (constructor library_headers config)) = [r] →
  adapter r = Replied res →
  result (invoke adapter c (constructor library_headers config))
  = Fulfilled (if returns_payload c then Payload res.(data) else Envelope res).
Proof.
  intros Hw Ha.
  destruct (invoke_exchange c (constructor library_headers config))
    as (q & Hq & _ & Hres).
  cbv zeta in Hq, Hres.
  set (r0 := {| defaults_of := _; config_of := q |}) in Hq, Hres.
  assert (r = r0) as -> by congruence.
  by rewrite Hres, Ha.
Qed.

End Calls.

Lemma Faults_key_is_class_name (k : string) (c : FaultClass) :
  Faults !! k = Some c → discriminator c = k.
Proof.
  intros H. apply elem_of_list_to_map_2 in H.
  repeat (apply elem_of_cons in H as [H|H]; [by inversion H|]).
  by apply elem_of_nil in H.
Qed.

Lemma returns_payload_false_iff (c : call) :
  returns_payload c = false
  ↔ c = CreateClient ∨ c = DeleteClient ∨ c = RemoveBreakpoints
    ∨ (∃ id, c = RemoveBreakpoint id) ∨ c = ResetScriptThreads.
Proof.
  split.
  - destruct c; simpl; try discriminate; intros _; eauto 10.
  - intros [-> | [-> | [-> | [[id ->] | ->]]]]; reflexivity.
Qed.

Lemma after_calls_same (adapter : Request → outcome) (cs : list call)
    (this : SDAPI) :
  after_calls adapter cs this = this.
Proof.
  induction cs as [|c cs IH]; simpl; [reflexivity|].
  destruct (invoke_exchange adapter c this) as (q & _ & -> & _).
  exact IH.
Qed.

(** What [step] does with the action it is given; the five public
    operations are its instances. *)
Lemma step_exchange (adapter : Request → outcome) (threadId : Z)
    (action : Action) (s : SDAPI) :
  let r := {| defaults_of := s.(http).(defaults);
              config_of :=
                {| method := POST;
                   url := "/threads/" +:+ Number_toString threadId +:+ "/"
                            +:+ Action_literal action;
                   params := None;
                   body := None |} |} in
  wire (step adapter threadId action s) = [r]
  ∧ this_after (step adapter threadId action s) = s
  ∧ result (step adapter threadId action s)
    = promise_then data (intercept s.(http).(interceptors_response) (adapter r)).
Proof. repeat split. Qed.

Lemma step_operation_step (adapter : Request → outcome) (action : Action)
    (threadId : Z) :
  step_operation adapter action threadId = step adapter threadId action.
Proof. by destruct action. Qed.

(** ** The properties of the specification *)

(** C1: for every discriminator that is a key of [Faults], a failed exchange
    whose body is [{fault: {type, message}}] with that discriminator makes the
    operation, whichever of the eighteen it is, reject with an instance of the
    class filed under that key, constructed from exactly that message; no
    condition is put on the status code of the response. *)
Theorem C1_known_fault_is_translated
    (adapter : Request → outcome) (library_headers : gmap string value)
    (config : Config) (c : call) (r : Request) (e : AxiosError)
    (res : AxiosResponse) (body fault : gmap string value)
    (type message : string) (Fault : FaultClass) :
  Faults !! type = Some Fault →
  wire (invoke adapter c (constructor library_headers config)) = [r] →
  adapter r = Failed e →
  e.(response) = Some res →
  res.(data) = VObj body →
  body !! "fault" = Some (VObj fault) →
  fault !! "type" = Some (VStr type) →
  fault !! "message" = Some (VStr message) →
  result (invoke adapter c (constructor library_headers config))
  = Rejected (FaultError Fault message)
  ∧ discriminator Fault = type.
Proof.
  intros Hkey Hw Ha Hres Hdata Hfault Htype Hmsg. split.
  - eapply invoke_rejected; [exact Hw | exact Ha |].
    by eapply axiosErrorToFault_known.
  - by apply Faults_key_is_class_name.
Qed.

Lemma C1_witness :
  result (invoke
            (λ _, Failed (reply_error 401
                            (faultResponse "NotAuthorizedException"
                               "You are not authorized to use the Script Debugger.")))
            CreateClient (constructor ∅ mockConfig))
  = Rejected (FaultError NotAuthorizedException
                "You are not authorized to use the Script Debugger.")
  ∧ discriminator NotAuthorizedException = "NotAuthorizedException".
Proof.
  eapply (C1_known_fault_is_translated _ ∅ mockConfig CreateClient);
    reflexivity.
Defined.

(** C2, where the code departs from it: a failed exchange whose [fault.type]
    is ["constructor"], which is no key of [Faults], is not passed through.
    The lookup [Faults[type]] finds the inherited [Object], the test [!Fault]
    lets it by, and the operation rejects with [new Object(message)]; with
    ["toString"] it rejects with the [TypeError] of a failed [new]. *)
Theorem C2_inherited_name_is_not_passed_through :
  Faults !! "constructor" = None
  ∧ Faults !! "toString" = None
  ∧ result (invoke
              (λ _, Failed (reply_error 500 (faultResponse "constructor" "boom")))
              CreateClient (constructor ∅ mockConfig))
    = Rejected (ObjectWrapper (VStr "boom"))
  ∧ result (invoke
              (λ _, Failed (reply_error 500 (faultResponse "constructor" "boom")))
              CreateClient (constructor ∅ mockConfig))
    ≠ Rejected (TransportError
                  (reply_error 500 (faultResponse "constructor" "boom")))
  ∧ result (invoke
              (λ _, Failed (reply_error 500 (faultResponse "toString" "boom")))
              CreateClient (constructor ∅ mockConfig))
    = Rejected (TypeError "Fault is not a constructor").
Proof. repeat split. discriminate. Qed.

(** The part of C2 the code keeps: without a [fault.type], or with one that
    neither [Faults] nor [Object.prototype] answers to, the operation rejects
    with the transport error it was given. *)
Lemma fallback_without_type
    (adapter : Request → outcome) (library_headers : gmap string value)
    (config : Config) (c : call) (r : Request) (e : AxiosError) :
  wire (invoke adapter c (constructor library_headers config)) = [r] →
  adapter r = Failed e →
  optional_member (fault_of e) "type" = VUndefined →
  result (invoke adapter c (constructor library_headers config))
  = Rejected (TransportError e).
Proof.
  intros Hw Ha Hty. eapply invoke_rejected; [exact Hw | exact Ha |].
  by apply axiosErrorToFault_absent.
Qed.

Lemma fallback_unresolved_type
    (adapter : Request → outcome) (library_headers : gmap string value)
    (config : Config) (c : call) (r : Request) (e : AxiosError) (k : string) :
  wire (invoke adapter c (constructor library_headers config)) = [r] →
  adapter r = Failed e →
  optional_member (fault_of e) "type" = VStr k →
  Faults !! k = None →
  Object_prototype !! k = None →
  result (invoke adapter c (constructor library_headers config))
  = Rejected (TransportError e).
Proof.
  intros Hw Ha Hty H1 H2. eapply invoke_rejected; [exact Hw | exact Ha |].
  apply axiosErrorToFault_unresolved with k; [by rewrite Hty | done | done].
Qed.

(** The suite's fallback test: a 500 whose body is plain text. *)
Example fault_interceptor_fallback :
  result (invoke (λ _, Failed (reply_error 500 (VStr "Internal Server Error")))
            CreateClient (constructor ∅ mockConfig))
  = Rejected (TransportError (reply_error 500 (VStr "Internal Server Error"))).
Proof. reflexivity. Qed.

(** C3: [getObjectMembers] without an [objectPath] sends exactly the two
    parameters [start] and [count], and no [object_path] key; with
    ['basket.productLineItems'], 10 and 100 it sends exactly [start: 10],
    [count: 100] and [object_path: 'basket.productLineItems']. *)
Theorem C3_object_path_parameter
    (adapter : Request → outcome) (this : SDAPI) (threadId frameIndex : Z)
    (start count : option Z) :
  (∃ p : gmap string value,
      sent_params (getObjectMembers adapter threadId frameIndex None
                     start count this) = [Some p]
      ∧ p = {[ "start" := VNum (default 0 start);
               "count" := VNum (default 200 count) ]}
      ∧ dom p = {[ "start"; "count" ]}
      ∧ p !! "object_path" = None)
  ∧ sent_params (getObjectMembers adapter threadId frameIndex
                   (Some "basket.productLineItems") (Some 10) (Some 100) this)
    = [Some {[ "start" := VNum 10; "count" := VNum 100;
               "object_path" := VStr "basket.productLineItems" ]}].
Proof.
  split; [eexists; split; [reflexivity|]|]; by vm_compute.
Qed.

(** The suite's two [getObjectMembers] cases. *)
Example getObjectMembers_tests :
  (λ q, (q.(config_of).(method), q.(config_of).(url), q.(config_of).(params)))
    <$> wire (getObjectMembers (λ _, Unanswered) 1 0 None None None
                (constructor ∅ mockConfig))
  = [(GET, "/threads/1/frames/0/members",
      Some {[ "start" := VNum 0; "count" := VNum 200 ]})]
  ∧ (λ q, (q.(config_of).(method), q.(config_of).(url), q.(config_of).(params)))
      <$> wire (getObjectMembers (λ _, Unanswered) 1 0
                  (Some "basket.productLineItems") (Some 10) (Some 100)
                  (constructor ∅ mockConfig))
    = [(GET, "/threads/1/frames/0/members",
        Some {[ "start" := VNum 10; "count" := VNum 100;
                "object_path" := VStr "basket.productLineItems" ]})].
Proof. split; by vm_compute. Qed.

(** C4: for every thread and frame, [getObjectMembers] and [getVariables]
    called without [start] and [count] send [start = 0] and [count = 200]. *)
Theorem C4_pagination_defaults
    (adapter : Request → outcome) (this : SDAPI) (threadId frameIndex : Z)
    (objectPath : option string) :
  (∃ p : gmap string value,
      sent_params (getObjectMembers adapter threadId frameIndex objectPath
                     None None this) = [Some p]
      ∧ p !! "start" = Some (VNum 0)
      ∧ p !! "count" = Some (VNum 200))
  ∧ sent_params (getVariables adapter threadId frameIndex None None this)
    = [Some {[ "start" := VNum 0; "count" := VNum 200 ]}].
Proof.
  split; [|reflexivity].
  eexists. split; [reflexivity|].
  destruct objectPath as [[|a s]|]; by vm_compute.
Qed.

(** C5: for every thread, each of the five step operations sends one
    request, a POST to [/threads/{threadId}/{action}] with its own action
    ([into], [out], [over], [resume], [stop]) and with neither parameters nor
    body, and when that request is answered with a response the operation
    resolves to the body of the response. *)
Theorem C5_step_posts_and_unwraps
    (adapter : Request → outcome) (library_headers : gmap string value)
    (config : Config) (threadId : Z) :
  posts_and_unwraps adapter (constructor library_headers config)
    (stepInto adapter threadId)
    ("/threads/" +:+ Number_toString threadId +:+ "/into")
  ∧ posts_and_unwraps adapter (constructor library_headers config)
      (stepOut adapter threadId)
      ("/threads/" +:+ Number_toString threadId +:+ "/out")
  ∧ posts_and_unwraps adapter (constructor library_headers config)
      (stepOver adapter threadId)
      ("/threads/" +:+ Number_toString threadId +:+ "/over")
  ∧ posts_and_unwraps adapter (constructor library_headers config)
      (stepResume adapter threadId)
      ("/threads/" +:+ Number_toString threadId +:+ "/resume")
  ∧ posts_and_unwraps adapter (constructor library_headers config)
      (stepStop adapter threadId)
      ("/threads/" +:+ Number_toString threadId +:+ "/stop").
Proof.
  assert (∀ action : Action,
            posts_and_unwraps adapter (constructor library_headers config)
              (step adapter threadId action)
              ("/threads/" +:+ Number_toString threadId +:+ "/"
                 +:+ Action_literal action)) as Hstep.
  { intros action.
    destruct (step_exchange adapter threadId action
                (constructor library_headers config)) as (Hw & _ & Hres).
    split; [exact Hw|].
    intros res Ha. rewrite Hres. cbv zeta. by rewrite Ha. }
  split; [exact (Hstep Into)|].
  split; [exact (Hstep Out)|].
  split; [exact (Hstep Over)|].
  split; [exact (Hstep Resume)|].
  exact (Hstep Stop).
Qed.

Lemma C5_witness :
  result (step_operation
            (λ _, Replied (reply 200 (VObj {[ "id" := VNum 1;
                                              "status" := VStr "running" ]})))
            Into 1 (constructor ∅ mockConfig))
  = Fulfilled (VObj {[ "id" := VNum 1; "status" := VStr "running" ]}).
Proof.
  apply (proj2 (proj1 (C5_step_posts_and_unwraps
                         (λ _, Replied (reply 200 (VObj {[ "id" := VNum 1;
                                                           "status" := VStr "running" ]})))
                         ∅ mockConfig 1))
           (reply 200 (VObj {[ "id" := VNum 1; "status" := VStr "running" ]}))).
  reflexivity.
Defined.

(** The suite's step tests: thread 1, each action. *)
Example step_paths :
  (λ a, (λ q, (q.(config_of).(method), q.(config_of).(url)))
          <$> wire (step_operation (λ _, Unanswered) a 1
                      (constructor ∅ mockConfig)))
    <$> [Into; Out; Over; Resume; Stop]
  = [ [(POST, "/threads/1/into")]; [(POST, "/threads/1/out")];
      [(POST, "/threads/1/over")]; [(POST, "/threads/1/resume")];
      [(POST, "/threads/1/stop")] ].
Proof. reflexivity. Qed.

(** Beyond the safe integers the path carries the number as JavaScript
    prints it. *)
Example step_path_of_a_large_thread_id :
  (λ q, (q.(config_of).(method), q.(config_of).(url)))
    <$> wire (stepOver (λ _, Unanswered) (10 ^ 21) (constructor ∅ mockConfig))
  = [(POST, "/threads/1e+21/over")].
Proof. by vm_compute. Qed.

(** C6: the constructor sets the base address to
    [https://{hostname}/s/-/dw/debugger/v2_0], the basic-auth credentials to
    the configured user name and password and the header [x-dw-client-id] to
    the client id; no operation, and no sequence of operations, changes the
    client object, and every request carries that configuration. *)
Theorem C6_configuration_set_once
    (library_headers : gmap string value) (config : Config)
    (adapter : Request → outcome) :
  (constructor library_headers config).(http).(defaults).(baseURL)
  = "https://" +:+ config.(hostname) +:+ "/s/-/dw/debugger/v2_0"
  ∧ (constructor library_headers config).(http).(defaults).(auth)
    = {| auth_username := config.(username);
         auth_password := config.(password) |}
  ∧ (constructor library_headers config).(http).(defaults).(headers)
      !! "x-dw-client-id" = Some (VStr config.(clientId))
  ∧ (∀ (c : call) (this : SDAPI),
        this_after (invoke adapter c this) = this
        ∧ defaults_of <$> wire (invoke adapter c this)
          = [this.(http).(defaults)])
  ∧ (∀ (cs : list call) (this : SDAPI), after_calls adapter cs this = this).
Proof.
  split; [reflexivity|]. split; [reflexivity|]. split.
  - simpl. apply lookup_union_Some_l. apply lookup_singleton_eq.
  - split.
    + intros c this.
      destruct (invoke_exchange adapter c this) as (q & Hw & Hs & _).
      cbv zeta in Hw. by rewrite Hs, Hw.
    + intros cs this. apply after_calls_same.
Qed.

(** The suite's configuration test. *)
Example config_test :
  (constructor ∅ mockConfig).(http).(defaults).(baseURL)
  = "https://localhost/s/-/dw/debugger/v2_0".
Proof. reflexivity. Qed.

(** C7: the success side of the interception point is the identity on every
    response, and every operation that returns a payload resolves, when its
    request is answered with a response, to exactly the body of that
    response. *)
Theorem C7_success_passes_and_unwraps
    (adapter : Request → outcome) (library_headers : gmap string value)
    (config : Config) :
  (∃ h : Interceptor,
      (constructor library_headers config).(http).(interceptors_response) = Some h
      ∧ ∀ res : AxiosResponse, h.(onFulfilled) res = res)
  ∧ (∀ res : AxiosResponse,
        intercept (constructor library_headers config).(http).(interceptors_response)
          (Replied res) = Fulfilled res)
  ∧ (∀ (c : call) (r : Request) (res : AxiosResponse),
        returns_payload c = true →
        wire (invoke adapter c (constructor library_headers config)) = [r] →
        adapter r = Replied res →
        result (invoke adapter c (constructor library_headers config))
        = Fulfilled (Payload res.(data))).
Proof.
  split; [by eexists|]. split; [done|].
  intros c r res Hp Hw Ha.
  rewrite (invoke_replied adapter library_headers config c r res Hw Ha).
  by rewrite Hp.
Qed.

Lemma C7_witness :
  result (invoke
            (λ _, Replied (reply 200 (VObj {[ "id" := VNum 1;
                                              "line_number" := VNum 1;
                                              "script_path" := VStr "/" ]})))
            (GetBreakpoint 1) (constructor ∅ mockConfig))
  = Fulfilled (Payload (VObj {[ "id" := VNum 1; "line_number" := VNum 1;
                                "script_path" := VStr "/" ]})).
Proof.
  eapply (proj2 (proj2 (C7_success_passes_and_unwraps _ ∅ mockConfig))
            (GetBreakpoint 1) _
            (reply 200 (VObj {[ "id" := VNum 1; "line_number" := VNum 1;
                                "script_path" := VStr "/" ]})));
    reflexivity.
Defined.

(** The operations the claim names, and the rest of the thirteen. *)
Example payload_operations :
  forallb returns_payload
    [ GetBreakpoint 1; GetScriptThread 1; GetBreakpoints;
      EvaluateExpression 1 0 "calculate()"; CreateBreakpoints {| breakpoints := [] |};
      GetScriptThreads; GetObjectMembers 1 0 None None None;
      GetVariables 1 0 None None; StepInto 1; StepOut 1; StepOver 1;
      StepResume 1; StepStop 1 ] = true.
Proof. reflexivity. Qed.

(** C8 as stated fails: an [objectPath] that is the empty string is supplied,
    and [object_path] is left out all the same. *)
Lemma C8_empty_object_path_counterexample :
  ¬ omits_object_path_only_when_absent.
Proof.
  intros H.
  specialize (H (λ _, Unanswered) (constructor ∅ mockConfig) 1 0 (Some EmptyString)
                None None {[ "start" := VNum 0; "count" := VNum 200 ]}
                eq_refl eq_refl).
  discriminate H.
Qed.

(** C8, amended: the request-builder of [getObjectMembers] leaves the
    [object_path] key out exactly when [objectPath] is absent or is the empty
    string, and sends every non-empty [objectPath] under that key. *)
Theorem C8_object_path_omitted_iff_absent_or_empty
    (adapter : Request → outcome) (this : SDAPI) (threadId frameIndex : Z)
    (objectPath : option string) (start count : option Z) :
  ∃ p : gmap string value,
    sent_params (getObjectMembers adapter threadId frameIndex objectPath
                   start count this) = [Some p]
    ∧ (p !! "object_path" = None ↔ objectPath = None ∨ objectPath = Some EmptyString)
    ∧ (∀ s : string,
          objectPath = Some s → s ≠ EmptyString → p !! "object_path" = Some (VStr s)).
Proof.
  eexists. split; [reflexivity|].
  destruct objectPath as [[|a s]|]; simpl.
  - split; [split; [by right | by vm_compute] | by intros s [= <-]].
  - split.
    + rewrite lookup_insert_eq. split; [discriminate | by intros [|]].
    + intros s' [= <-] _. by rewrite lookup_insert_eq.
  - split; [split; [by left | by vm_compute] | discriminate].
Qed.

Lemma C8_witness :
  ∃ p : gmap string value,
    sent_params (getObjectMembers (λ _, Unanswered) 1 0 (Some "basket")
                   None None (constructor ∅ mockConfig)) = [Some p]
    ∧ p !! "object_path" = Some (VStr "basket").
Proof.
  destruct (C8_object_path_omitted_iff_absent_or_empty
              (λ _, Unanswered) (constructor ∅ mockConfig) 1 0 (Some "basket")
              None None) as (p & Hp & _ & Hs).
  exists p. split; [exact Hp|].
  apply (Hs "basket"); [reflexivity | discriminate].
Defined.

(** C9: for every thread and frame, [getObjectMembers] with the empty string
    as [objectPath] sends exactly the parameters [start] and [count], the same
    request parameters as with no [objectPath] at all. *)
Theorem C9_empty_object_path_is_omitted
    (adapter : Request → outcome) (this : SDAPI) (threadId frameIndex : Z)
    (start count : option Z) :
  sent_params (getObjectMembers adapter threadId frameIndex (Some EmptyString)
                 start count this)
  = [Some {[ "start" := VNum (default 0 start);
             "count" := VNum (default 200 count) ]}]
  ∧ dom ({[ "start" := VNum (default 0 start);
            "count" := VNum (default 200 count) ]} : gmap string value)
    = {[ "start"; "count" ]}
  ∧ wire (getObjectMembers adapter threadId frameIndex (Some EmptyString)
            start count this)
    = wire (getObjectMembers adapter threadId frameIndex None
              start count this).
Proof. repeat split. Qed.

(** C10: [createClient], [deleteClient], [removeBreakpoints],
    [removeBreakpoint] and [resetScriptThreads] resolve, when their request is
    answered with a response, to that response as a whole: status, headers and
    body, not the body alone. *)
Theorem C10_bare_operations_resolve_to_response
    (adapter : Request → outcome) (library_headers : gmap string value)
    (config : Config) (c : call) (r : Request) (res : AxiosResponse) :
  c = CreateClient ∨ c = DeleteClient ∨ c = RemoveBreakpoints
    ∨ (∃ id : Z, c = RemoveBreakpoint id) ∨ c = ResetScriptThreads →
  wire (invoke adapter c (constructor library_headers config)) = [r] →
  adapter r = Replied res →
  result (invoke adapter c (constructor library_headers config))
  = Fulfilled (Envelope res)
  ∧ result (invoke adapter c (constructor library_headers config))
    ≠ Fulfilled (Payload res.(data)).
Proof.
  intros Hc Hw Ha. apply returns_payload_false_iff in Hc.
  rewrite (invoke_replied adapter library_headers config c r res Hw Ha), Hc.
  split; [reflexivity | discriminate].
Qed.

Lemma C10_witness :
  result (invoke (λ _, Replied (reply 204 VUndefined)) (RemoveBreakpoint 1)
            (constructor ∅ mockConfig))
  = Fulfilled (Envelope (reply 204 VUndefined))
  ∧ result (invoke (λ _, Replied (reply 204 VUndefined)) (RemoveBreakpoint 1)
              (constructor ∅ mockConfig))
    ≠ Fulfilled (Payload VUndefined).
Proof.
  eapply (C10_bare_operations_resolve_to_response _ ∅ mockConfig
            (RemoveBreakpoint 1) _ (reply 204 VUndefined)).
  - right. right. right. left. by exists 1.
  - reflexivity.
  - reflexivity.
Defined.

(** * Further properties of the translator and of the operations *)

(** ** Paths *)

Lemma app_String (a : ascii) (s t : string) :
  String a s +:+ t = String a (s +:+ t).
Proof. reflexivity. Qed.

Lemma app_empty (t : string) : EmptyString +:+ t = t.
Proof. reflexivity. Qed.

Lemma no_slash_pretty_N_go (x : N) (s : string) :
  no_slash s → no_slash (pretty_N_go x s).
Proof.
  revert s. induction (N.lt_wf_0 x) as [x _ IH]; intros s Hs.
  assert (x = 0 ∨ 0 < x)%N as [->|?] by lia.
  - by rewrite pretty_N_go_0.
  - rewrite pretty_N_go_step by done. apply IH.
    { by apply N.div_lt. }
    split; [|done]. unfold pretty_N_char. by repeat case_match.
Qed.

Lemma no_slash_pretty_Z (n : Z) : no_slash (pretty n).
Proof.
  unfold pretty, pretty_Z.
  assert (∀ p : positive, no_slash (pretty p)) as Hp.
  { intros p. unfold pretty, pretty_positive, pretty, pretty_N.
    case_decide; [done|]. by apply no_slash_pretty_N_go. }
  destruct n as [|p|p]; [done | apply Hp |].
  split; [done | apply Hp].
Qed.

(** A safe integer prints as its decimal digits. *)
Lemma Number_toString_safe (n : Z) :
  safe_integer n → Number_toString n = pretty n.
Proof.
  unfold safe_integer, Number_toString. intros H.
  by rewrite (proj2 (Z.ltb_lt _ _) H).
Qed.

(** Past the safe integers it does not: [1e21] and [2 ^ 65]. *)
Example Number_toString_large_integers :
  Number_toString <$> [10 ^ 21; 2 ^ 65; 2 ^ 53 + 1; - 10 ^ 23; 10 ^ 400]
  = ["1e+21"; "36893488147419103000"; "9007199254740992"; "-1e+23";
     "Infinity"].
Proof. by vm_compute. Qed.

(** Two paths that agree split at their first ['/'] into equal parts. *)
Lemma no_slash_split (a a' s s' : string) :
  no_slash a → no_slash a' →
  a +:+ String "/" s = a' +:+ String "/" s' → a = a' ∧ s = s'.
Proof.
  revert a'. induction a as [|x a IH]; intros [|x' a'] Ha Ha' H;
    rewrite ?app_String, ?app_empty in H.
  - by injection H.
  - destruct Ha' as [Hx _]. injection H as Hc _. by destruct Hx.
  - destruct Ha as [Hx _]. injection H as Hc _. by destruct Hx.
  - destruct Ha as [_ Ha], Ha' as [_ Ha']. injection H as -> H.
    by destruct (IH a' Ha Ha' H) as [-> ->].
Qed.

Lemma no_slash_whole (a b s : string) :
  no_slash a → a ≠ b +:+ String "/" s.
Proof.
  revert b. induction a as [|x a IH]; intros [|y b] Ha H;
    rewrite ?app_String, ?app_empty in H; try discriminate H.
  - destruct Ha as [Hx _]. injection H as Hc _. by destruct Hx.
  - destruct Ha as [_ Ha]. injection H as _ H. by eapply IH.
Qed.

Ltac url_norm H :=
  repeat first [ rewrite !app_String in H | rewrite !app_empty in H ];
  repeat (injection H as H;
          repeat first [ rewrite !app_String in H | rewrite !app_empty in H ]).

Ltac url_solve Hu :=
  url_norm Hu; try discriminate Hu;
  lazymatch type of Hu with
  | @pretty Z _ _ = @pretty Z _ _ =>
      apply (inj pretty) in Hu; subst; reflexivity
  | @pretty Z _ ?n = _ +:+ String "/" _ =>
      destruct (no_slash_whole _ _ _ (no_slash_pretty_Z n) Hu)
  | _ +:+ String "/" _ = @pretty Z _ ?n =>
      symmetry in Hu;
      destruct (no_slash_whole _ _ _ (no_slash_pretty_Z n) Hu)
  | "reset" = _ +:+ String "/" _ =>
      exfalso; refine (no_slash_whole "reset" _ _ _ Hu); by repeat split
  | _ +:+ String "/" _ = "reset" =>
      symmetry in Hu;
      exfalso; refine (no_slash_whole "reset" _ _ _ Hu); by repeat split
  | @pretty Z _ _ +:+ String "/" _ = @pretty Z _ _ +:+ String "/" _ =>
      let Ht := fresh "Ht" in
      apply no_slash_split in Hu as [Ht Hu];
      [ apply (inj pretty) in Ht; subst; try reflexivity; url_solve Hu
      | apply no_slash_pretty_Z
      | apply no_slash_pretty_Z ]
  | _ => try reflexivity
  end.

Lemma invoke_route (adapter : Request → outcome) (c : call) (this : SDAPI) :
  sent_routes (invoke adapter c this) = [route c].
Proof. by destruct c. Qed.

Lemma route_inj (c1 c2 : call) :
  Forall safe_integer (path_numbers c1) →
  Forall safe_integer (path_numbers c2) →
  route c1 = route c2 → addressed c1 = addressed c2.
Proof.
  intros H1 H2 H.
  destruct c1, c2; cbn [route] in H; try discriminate H;
    cbn [path_numbers] in H1, H2;
    repeat match goal with
      | Hs : Forall safe_integer (_ :: _) |- _ =>
          apply Forall_cons in Hs as [?%Number_toString_safe Hs]
      end;
    apply (f_equal snd) in H; cbn [snd] in H;
    repeat match goal with
      | E : Number_toString _ = _ |- _ => rewrite E in H; clear E
      end;
    url_solve H.
Qed.

(** X1: the method and the path of the request identify the operation and
    the resource: two calls with safe integers for their breakpoint, thread
    and frame numbers whose requests agree in both are calls of the same
    operation with the same numbers. *)
Theorem method_and_url_identify_operation
    (adapter1 adapter2 : Request → outcome) (this1 this2 : SDAPI)
    (c1 c2 : call) :
  Forall safe_integer (path_numbers c1) →
  Forall safe_integer (path_numbers c2) →
  sent_routes (invoke adapter1 c1 this1) = sent_routes (invoke adapter2 c2 this2) →
  addressed c1 = addressed c2.
Proof.
  rewrite !invoke_route. intros H1 H2 [= H]. by apply route_inj.
Qed.

Lemma method_and_url_identify_operation_witness :
  addressed (GetObjectMembers 1 0 (Some "basket") None None)
  = addressed (GetObjectMembers 1 0 None (Some 10) (Some 100)).
Proof.
  apply (method_and_url_identify_operation
           (λ _, Unanswered) (λ _, Unanswered)
           (constructor ∅ mockConfig) (constructor ∅ mockConfig)).
  - repeat constructor.
  - repeat constructor.
  - reflexivity.
Defined.

(** ** The fault table, both ways *)

(** X2: [Faults] files each fault class under its own name and under no other
    key: a key answers with a class exactly when it is the name of that
    class. *)
Theorem Faults_lookup_iff (k : string) (c : FaultClass) :
  Faults !! k = Some c ↔ k = discriminator c.
Proof.
  split.
  - intros H. symmetry. by apply Faults_key_is_class_name.
  - intros ->. apply Faults_discriminator.
Qed.

(** ** How an operation settles *)

Lemma axiosErrorToFault_rejects {A : Type} (e : AxiosError) :
  (∃ t, axiosErrorToFault (A:=A) e = Return (Rejected t))
  ∨ (∃ t, axiosErrorToFault (A:=A) e = Throw t).
Proof.
  unfold axiosErrorToFault.
  destruct (ToString _); [|eauto].
  destruct (Faults_get _); [|eauto].
  destruct (construct _ _); eauto.
Qed.

(** What [new Fault(message)] can come to. *)
Lemma construct_cases (F : property) (v : value) :
  match construct F v with
  | Return (FaultError c _) => F = Own c
  | Return (ObjectWrapper _) => F = Inherited ObjectConstructor
  | Return _ => False
  | Throw (TypeError _) => True
  | Throw _ => False
  end.
Proof.
  unfold construct. destruct F as [c|[| |]]; [|done..].
  destruct v; try done; by destruct (ToString _).
Qed.

Lemma invoke_result (adapter : Request → outcome)
    (library_headers : gmap string value) (config : Config) (c : call)
    (r : Request) :
  wire (invoke adapter c (constructor library_headers config)) = [r] →
  result (invoke adapter c (constructor library_headers config))
  = promise_then
      (λ res, if returns_payload c then Payload res.(data) else Envelope res)
      (intercept
         (Some {| onFulfilled := λ res, res; onRejected := axiosErrorToFault |})
         (adapter r)).
Proof.
  intros Hw.
  destruct (invoke_exchange adapter c (constructor library_headers config))
    as (q & Hq & _ & Hres).
  cbv zeta in Hq, Hres.
  set (r0 := {| defaults_of := _; config_of := q |}) in Hq, Hres.
  assert (r = r0) as -> by congruence.
  exact Hres.
Qed.

(** X3: an operation settles as its exchange does.  Answered with a response
    it resolves; failed, it rejects, whatever the error carries; left without
    an answer, its promise stays pending. *)
Theorem operation_settles_as_exchange
    (adapter : Request → outcome) (library_headers : gmap string value)
    (config : Config) (c : call) (r : Request) :
  wire (invoke adapter c (constructor library_headers config)) = [r] →
  match adapter r with
  | Replied _ =>
      ∃ v, result (invoke adapter c (constructor library_headers config))
           = Fulfilled v
  | Failed _ =>
      ∃ t, result (invoke adapter c (constructor library_headers config))
           = Rejected t
  | Unanswered =>
      result (invoke adapter c (constructor library_headers config)) = Pending
  end.
Proof.
  intros Hw. rewrite (invoke_result _ _ _ _ _ Hw).
  destruct (adapter r) as [res|e|]; simpl; [eauto | | done].
  destruct (axiosErrorToFault_rejects (A:=AxiosResponse) e) as [[t ->]|[t ->]];
    simpl; eauto.
Qed.

Lemma operation_settles_as_exchange_witness :
  ∃ t, result (invoke (λ _, Failed (reply_error 500 (VStr "Internal Server Error")))
                 DeleteClient (constructor ∅ mockConfig))
       = Rejected t.
Proof.
  exact (operation_settles_as_exchange
           (λ _, Failed (reply_error 500 (VStr "Internal Server Error")))
           ∅ mockConfig DeleteClient _ eq_refl).
Defined.

(** X4: a typed fault is never made up.  When an operation rejects with an
    instance of a fault class, its exchange failed, the [fault.type] of the
    error converts to the name of that class, and the message of the instance
    is the one [new Fault(fault.message)] gives. *)
Theorem typed_rejection_comes_from_the_fault
    (adapter : Request → outcome) (library_headers : gmap string value)
    (config : Config) (c : call) (r : Request) (Fault : FaultClass)
    (message : string) :
  wire (invoke adapter c (constructor library_headers config)) = [r] →
  result (invoke adapter c (constructor library_headers config))
  = Rejected (FaultError Fault message) →
  ∃ e : AxiosError,
    adapter r = Failed e
    ∧ ToString (optional_member (fault_of e) "type") = Some (discriminator Fault)
    ∧ construct (Own Fault) (optional_member (fault_of e) "message")
      = Return (FaultError Fault message).
Proof.
  intros Hw. rewrite (invoke_result _ _ _ _ _ Hw).
  destruct (adapter r) as [res|e|]; simpl; [discriminate | | discriminate].
  intros H. exists e. split; [reflexivity|].
  unfold axiosErrorToFault in H.
  destruct (ToString (optional_member (fault_of e) "type")) as [k|];
    [|discriminate H].
  unfold Faults_get in H.
  destruct (Faults !! k) as [c'|] eqn:Hk.
  - apply Faults_key_is_class_name in Hk as <-.
    pose proof (construct_cases (Own c')
                  (optional_member (fault_of e) "message")) as Hc.
    destruct (construct (Own c') _) as [t|t] eqn:Hcon; injection H as ->;
      [|done].
    injection Hc as ->. split; [reflexivity | exact Hcon].
  - pose proof (λ b, construct_cases (Inherited b)
                       (optional_member (fault_of e) "message")) as Hc.
    destruct (Object_prototype !! k) as [b|]; [|discriminate H].
    specialize (Hc b). cbn -[construct] in H.
    destruct (construct (Inherited b) _) as [t|t]; injection H as ->;
      discriminate Hc || done.
Qed.

Lemma typed_rejection_comes_from_the_fault_witness :
  ∃ e : AxiosError,
    Failed (reply_error 404 (faultResponse "BreakpointNotFoundException" "gone"))
    = Failed e
    ∧ ToString (optional_member (fault_of e) "type")
      = Some (discriminator BreakpointNotFoundException)
    ∧ construct (Own BreakpointNotFoundException)
        (optional_member (fault_of e) "message")
      = Return (FaultError BreakpointNotFoundException "gone").
Proof.
  exact (typed_rejection_comes_from_the_fault
           (λ _, Failed (reply_error 404
                           (faultResponse "BreakpointNotFoundException" "gone")))
           ∅ mockConfig (GetBreakpoint 1) _ BreakpointNotFoundException "gone"
           eq_refl eq_refl).
Defined.

(** X5: the untranslated error is the adapter's own.  When an operation
    rejects with a transport error, that error is the very one its exchange
    failed with: status, body and message are what the adapter reported. *)
Theorem passed_through_error_is_the_original
    (adapter : Request → outcome) (library_headers : gmap string value)
    (config : Config) (c : call) (r : Request) (e : AxiosError) :
  wire (invoke adapter c (constructor library_headers config)) = [r] →
  result (invoke adapter c (constructor library_headers config))
  = Rejected (TransportError e) →
  adapter r = Failed e.
Proof.
  intros Hw. rewrite (invoke_result _ _ _ _ _ Hw).
  destruct (adapter r) as [res|e'|]; simpl; [discriminate | | discriminate].
  unfold axiosErrorToFault.
  destruct (ToString _) as [k|]; [|discriminate].
  destruct (Faults_get k) as [F|]; [|by intros [= ->]].
  pose proof (construct_cases F (optional_member (fault_of e') "message")) as Hc.
  destruct (construct F _) as [t|t]; intros [= ->]; done.
Qed.

Lemma passed_through_error_is_the_original_witness :
  Failed (reply_error 500 (VStr "Internal Server Error"))
  = Failed (reply_error 500 (VStr "Internal Server Error")).
Proof.
  exact (passed_through_error_is_the_original
           (λ _, Failed (reply_error 500 (VStr "Internal Server Error")))
           ∅ mockConfig CreateClient _ _ eq_refl eq_refl).
Defined.

(** ** The fallback *)

(** X6: a failure that names no fault is passed through.  When the error has
    no response (a network failure), or the body of the response is not an
    object, or has no [fault] object in it, or the [fault] has no [type], the
    operation rejects with the error of the transport as it came. *)
Theorem failure_without_fault_type_passes_through
    (adapter : Request → outcome) (library_headers : gmap string value)
    (config : Config) (c : call) (r : Request) (e : AxiosError) :
  wire (invoke adapter c (constructor library_headers config)) = [r] →
  adapter r = Failed e →
  (∀ fault : gmap string value,
      fault_of e = VObj fault → fault !! "type" = None) →
  result (invoke adapter c (constructor library_headers config))
  = Rejected (TransportError e).
Proof.
  intros Hw Ha Hty. eapply invoke_rejected; [exact Hw | exact Ha |].
  apply axiosErrorToFault_absent.
  destruct (fault_of e) as [| | | | | |fault] eqn:Hf; try reflexivity.
  simpl. by rewrite (Hty fault eq_refl).
Qed.

Lemma failure_without_fault_type_passes_through_witness :
  result (invoke
            (λ _, Failed {| error_message := "Network Error"; code := None;
                            response := None |})
            GetScriptThreads (constructor ∅ mockConfig))
  = Rejected (TransportError {| error_message := "Network Error"; code := None;
                                response := None |}).
Proof.
  eapply (failure_without_fault_type_passes_through
            _ ∅ mockConfig GetScriptThreads);
    [reflexivity | reflexivity | discriminate].
Defined.

(** X7: a fault of a type the table does not know is passed through.  When
    [fault.type] is a string that is neither a key of [Faults] nor a name
    [Object.prototype] answers to, the operation rejects with the error of
    the transport as it came. *)
Theorem unknown_fault_type_passes_through
    (adapter : Request → outcome) (library_headers : gmap string value)
    (config : Config) (c : call) (r : Request) (e : AxiosError)
    (res : AxiosResponse) (body fault : gmap string value) (type : string) :
  wire (invoke adapter c (constructor library_headers config)) = [r] →
  adapter r = Failed e →
  e.(response) = Some res →
  res.(data) = VObj body →
  body !! "fault" = Some (VObj fault) →
  fault !! "type" = Some (VStr type) →
  Faults !! type = None →
  Object_prototype !! type = None →
  result (invoke adapter c (constructor library_headers config))
  = Rejected (TransportError e).
Proof.
  intros Hw Ha Hres Hdata Hfault Htype H1 H2.
  eapply invoke_rejected; [exact Hw | exact Ha |].
  apply axiosErrorToFault_unresolved with type; [|done..].
  unfold fault_of. rewrite Hres, Hdata. simpl. rewrite Hfault. simpl.
  by rewrite Htype.
Qed.

Lemma unknown_fault_type_passes_through_witness :
  result (invoke
            (λ _, Failed (reply_error 500
                            (faultResponse "InternalServerException" "down")))
            GetScriptThreads (constructor ∅ mockConfig))
  = Rejected (TransportError
                (reply_error 500 (faultResponse "InternalServerException" "down"))).
Proof.
  eapply (unknown_fault_type_passes_through _ ∅ mockConfig GetScriptThreads
            _ _ _ _ _ "InternalServerException");
    reflexivity.
Defined.

(** ** The message of a typed fault *)

(** X8: a known fault that comes without a [message] is still translated: the
    operation rejects with an instance of the class, whose message is the
    empty string. *)
Theorem known_fault_without_message
    (adapter : Request → outcome) (library_headers : gmap string value)
    (config : Config) (c : call) (r : Request) (e : AxiosError)
    (res : AxiosResponse) (body fault : gmap string value)
    (type : string) (Fault : FaultClass) :
  Faults !! type = Some Fault →
  wire (invoke adapter c (constructor library_headers config)) = [r] →
  adapter r = Failed e →
  e.(response) = Some res →
  res.(data) = VObj body →
  body !! "fault" = Some (VObj fault) →
  fault !! "type" = Some (VStr type) →
  fault !! "message" = None →
  result (invoke adapter c (constructor library_headers config))
  = Rejected (FaultError Fault EmptyString).
Proof.
  intros Hkey Hw Ha Hres Hdata Hfault Htype Hmsg.
  eapply invoke_rejected; [exact Hw | exact Ha |].
  unfold axiosErrorToFault, fault_of.
  rewrite Hres, Hdata. simpl. rewrite Hfault. simpl.
  rewrite Htype, Hmsg. simpl.
  by rewrite (Faults_get_own _ _ Hkey).
Qed.

Lemma known_fault_without_message_witness :
  result (invoke
            (λ _, Failed (reply_error 412
                            (VObj {[ "fault" :=
                                       VObj {[ "type" :=
                                                 VStr "DebuggerDisabledException" ]} ]})))
            GetBreakpoints (constructor ∅ mockConfig))
  = Rejected (FaultError DebuggerDisabledException EmptyString).
Proof.
  eapply (known_fault_without_message _ ∅ mockConfig GetBreakpoints
            _ _ _ _ _ "DebuggerDisabledException");
    reflexivity.
Defined.

(** X9: a known fault whose [message] is not a string is translated with the
    message converted to one: a number gives its digits, [null] gives
    ["null"], an array its joined elements. *)
Theorem known_fault_message_is_converted
    (adapter : Request → outcome) (library_headers : gmap string value)
    (config : Config) (c : call) (r : Request) (e : AxiosError)
    (res : AxiosResponse) (body fault : gmap string value)
    (type : string) (Fault : FaultClass) (message : value) (text : string) :
  Faults !! type = Some Fault →
  wire (invoke adapter c (constructor library_headers config)) = [r] →
  adapter r = Failed e →
  e.(response) = Some res →
  res.(data) = VObj body →
  body !! "fault" = Some (VObj fault) →
  fault !! "type" = Some (VStr type) →
  fault !! "message" = Some message →
  message ≠ VUndefined →
  ToString message = Some text →
  result (invoke adapter c (constructor library_headers config))
  = Rejected (FaultError Fault text).
Proof.
  intros Hkey Hw Ha Hres Hdata Hfault Htype Hmsg Hdef Htext.
  eapply invoke_rejected; [exact Hw | exact Ha |].
  unfold axiosErrorToFault, fault_of.
  rewrite Hres, Hdata. simpl. rewrite Hfault. simpl.
  rewrite Htype, Hmsg. simpl.
  rewrite (Faults_get_own _ _ Hkey). unfold construct.
  destruct message; try done; by rewrite Htext.
Qed.

Lemma known_fault_message_is_converted_witness :
  result (invoke
            (λ _, Failed (reply_error 404
                            (VObj {[ "fault" :=
                                       VObj {[ "type" :=
                                                 VStr "ScriptThreadNotFoundException";
                                               "message" := VNum 404 ]} ]})))
            (GetScriptThread 1) (constructor ∅ mockConfig))
  = Rejected (FaultError ScriptThreadNotFoundException "404").
Proof.
  eapply (known_fault_message_is_converted _ ∅ mockConfig (GetScriptThread 1)
            _ _ _ _ _ "ScriptThreadNotFoundException" _ (VNum 404));
    (reflexivity || discriminate).
Defined.

(** X10: the key of the lookup is [fault.type] converted to a string, so a
    [type] that is an array holding one known name is translated as that name
    is. *)
Theorem fault_type_in_an_array_is_translated
    (adapter : Request → outcome) (library_headers : gmap string value)
    (config : Config) (c : call) (r : Request) (e : AxiosError)
    (res : AxiosResponse) (body fault : gmap string value)
    (type message : string) (Fault : FaultClass) :
  Faults !! type = Some Fault →
  wire (invoke adapter c (constructor library_headers config)) = [r] →
  adapter r = Failed e →
  e.(response) = Some res →
  res.(data) = VObj body →
  body !! "fault" = Some (VObj fault) →
  fault !! "type" = Some (VArr [VStr type]) →
  fault !! "message" = Some (VStr message) →
  result (invoke adapter c (constructor library_headers config))
  = Rejected (FaultError Fault message).
Proof.
  intros Hkey Hw Ha Hres Hdata Hfault Htype Hmsg.
  eapply invoke_rejected; [exact Hw | exact Ha |].
  unfold axiosErrorToFault, fault_of.
  rewrite Hres, Hdata. simpl. rewrite Hfault. simpl.
  rewrite Htype, Hmsg. simpl.
  by rewrite (Faults_get_own _ _ Hkey).
Qed.

Lemma fault_type_in_an_array_is_translated_witness :
  result (invoke
            (λ _, Failed (reply_error 401
                            (VObj {[ "fault" :=
                                       VObj {[ "type" :=
                                                 VArr [VStr "NotAuthorizedException"];
                                               "message" := VStr "no" ]} ]})))
            CreateClient (constructor ∅ mockConfig))
  = Rejected (FaultError NotAuthorizedException "no").
Proof.
  eapply (fault_type_in_an_array_is_translated _ ∅ mockConfig CreateClient
            _ _ _ _ _ "NotAuthorizedException");
    reflexivity.
Defined.

(** ** What goes on the wire *)

(** X11: the request of a call is fixed by the call and the client alone.
    Whatever the adapter answers, and however it would answer, the same single
    request is sent: a failure is never followed by a second attempt. *)
Theorem request_does_not_depend_on_the_answer
    (adapter1 adapter2 : Request → outcome) (c : call) (this : SDAPI) :
  wire (invoke adapter1 c this) = wire (invoke adapter2 c this)
  ∧ length (wire (invoke adapter1 c this)) = 1%nat.
Proof. by destruct c. Qed.

(** X12: only [createBreakpoints] sends a body, the breakpoints it was given,
    and only three operations send query parameters, all of them GETs:
    [expr] for [evaluateExpression], [start] and [count] for [getVariables]
    and [getObjectMembers], the latter with or without [object_path].  Both
    ways: these operations do send them, and a request that carries a body
    or parameters comes from one of them. *)
Theorem body_and_parameters_of_a_request
    (adapter : Request → outcome) (c : call) (this : SDAPI) (r : Request) :
  wire (invoke adapter c this) = [r] →
  (∀ b : value,
      r.(config_of).(body) = Some b →
      r.(config_of).(method) = POST
      ∧ ∃ bs : Breakpoints, c = CreateBreakpoints bs ∧ b = Breakpoints_value bs)
  ∧ (∀ p : gmap string value,
        r.(config_of).(params) = Some p →
        r.(config_of).(method) = GET
        ∧ ((∃ t f e, c = EvaluateExpression t f e) ∧ dom p = {[ "expr" ]}
           ∨ (∃ t f s n, c = GetVariables t f s n)
             ∧ dom p = {[ "start"; "count" ]}
           ∨ (∃ t f o s n, c = GetObjectMembers t f o s n)
             ∧ (dom p = {[ "start"; "count" ]}
                ∨ dom p = {[ "start"; "count"; "object_path" ]})))
  ∧ match c with
    | CreateBreakpoints bs =>
        r.(config_of).(method) = POST
        ∧ r.(config_of).(body) = Some (Breakpoints_value bs)
        ∧ r.(config_of).(params) = None
    | EvaluateExpression _ _ e =>
        r.(config_of).(method) = GET
        ∧ r.(config_of).(params) = Some {[ "expr" := VStr e ]}
        ∧ r.(config_of).(body) = None
    | GetVariables _ _ _ _ =>
        r.(config_of).(method) = GET
        ∧ (∃ p : gmap string value,
              r.(config_of).(params) = Some p
              ∧ dom p = {[ "start"; "count" ]})
        ∧ r.(config_of).(body) = None
    | GetObjectMembers _ _ _ _ _ =>
        r.(config_of).(method) = GET
        ∧ (∃ p : gmap string value,
              r.(config_of).(params) = Some p
              ∧ (dom p = {[ "start"; "count" ]}
                 ∨ dom p = {[ "start"; "count"; "object_path" ]}))
        ∧ r.(config_of).(body) = None
    | _ =>
        r.(config_of).(params) = None ∧ r.(config_of).(body) = None
    end.
Proof.
  intros Hw.
  assert (∀ (o : option string) (s n : option Z),
            let p : gmap string value :=
              if truthy (optional_string o)
              then <["object_path" := optional_string o]>
                     {[ "start" := VNum (default 0 s);
                        "count" := VNum (default 200 n) ]}
              else {[ "start" := VNum (default 0 s);
                      "count" := VNum (default 200 n) ]} in
            dom p = {[ "start"; "count" ]}
            ∨ dom p = {[ "start"; "count"; "object_path" ]}) as Hmembers.
  { intros o s n.
    destruct o as [[|a o]|]; simpl.
    - left. rewrite dom_insert_L, dom_singleton_L. set_solver.
    - right. rewrite !dom_insert_L, dom_singleton_L. set_solver.
    - left. rewrite dom_insert_L, dom_singleton_L. set_solver. }
  assert (∀ s n : option Z,
            dom ({[ "start" := VNum (default 0 s);
                    "count" := VNum (default 200 n) ]} : gmap string value)
            = {[ "start"; "count" ]}) as Hvariables.
  { intros s n. rewrite dom_insert_L, dom_singleton_L. set_solver. }
  destruct c; injection Hw as <-;
    (split; [intros b Hb | split; [intros p Hp|]]);
    try discriminate; try done.
  - injection Hb as <-. eauto.
  - injection Hp as <-. split; [done|]. left. split; [eauto|].
    by rewrite dom_singleton_L.
  - injection Hp as <-. split; [done|]. right. right. split; [eauto 10|].
    apply Hmembers.
  - split; [done|]. split; [|done]. eexists. split; [reflexivity|].
    apply Hmembers.
  - injection Hp as <-. split; [done|]. right. left. split; [eauto 10|].
    apply Hvariables.
  - split; [done|]. split; [|done]. eexists. split; [reflexivity|].
    apply Hvariables.
Qed.

Lemma body_and_parameters_of_a_request_witness :
  GET = GET
  ∧ ((∃ t f e, EvaluateExpression 1 0 "calculate()" = EvaluateExpression t f e)
     ∧ dom ({[ "expr" := VStr "calculate()" ]} : gmap string value)
       = {[ "expr" ]}
     ∨ (∃ t f s n, EvaluateExpression 1 0 "calculate()" = GetVariables t f s n)
       ∧ dom ({[ "expr" := VStr "calculate()" ]} : gmap string value)
         = {[ "start"; "count" ]}
     ∨ (∃ t f o s n,
           EvaluateExpression 1 0 "calculate()" = GetObjectMembers t f o s n)
       ∧ (dom ({[ "expr" := VStr "calculate()" ]} : gmap string value)
          = {[ "start"; "count" ]}
          ∨ dom ({[ "expr" := VStr "calculate()" ]} : gmap string value)
            = {[ "start"; "count"; "object_path" ]})).
Proof.
  exact (proj1 (proj2 (body_and_parameters_of_a_request
                         (λ _, Unanswered) (EvaluateExpression 1 0 "calculate()")
                         (constructor ∅ mockConfig) _ eq_refl))
           {[ "expr" := VStr "calculate()" ]} eq_refl).
Defined.

(** X13: the pagination arguments go out as they were given, zero and
    negative numbers included; each default stands in for its own omitted
    argument only. *)
Theorem pagination_arguments_are_sent_as_given
    (adapter : Request → outcome) (this : SDAPI) (threadId frameIndex : Z)
    (objectPath : option string) (start count : option Z) :
  (∃ p : gmap string value,
      sent_params (getObjectMembers adapter threadId frameIndex objectPath
                     start count this) = [Some p]
      ∧ p !! "start" = Some (VNum (default 0 start))
      ∧ p !! "count" = Some (VNum (default 200 count)))
  ∧ sent_params (getVariables adapter threadId frameIndex start count this)
    = [Some {[ "start" := VNum (default 0 start);
               "count" := VNum (default 200 count) ]}].
Proof.
  split; [|reflexivity].
  eexists. split; [reflexivity|].
  destruct objectPath as [[|a s]|]; simpl; by simplify_map_eq.
Qed.

(** ** The constructor keeps the whole configuration *)

Lemma length_app (s t : string) :
  String.length (s +:+ t) = (String.length s + String.length t)%nat.
Proof.
  induction s as [|a s IH]; [done|].
  rewrite app_String. simpl. by rewrite IH.
Qed.

Lemma app_inj_r (s1 s2 t : string) : s1 +:+ t = s2 +:+ t → s1 = s2.
Proof.
  intros H.
  assert (String.length s1 = String.length s2) as Hlen.
  { apply (f_equal String.length) in H.
    rewrite !length_app in H. lia. }
  revert s2 H Hlen. induction s1 as [|a s1 IH]; intros [|b s2] H Hlen;
    try discriminate Hlen; [done|].
  rewrite !app_String in H. injection H as -> H.
  f_equal. apply IH; [done|]. by injection Hlen.
Qed.

(** X14: nothing of the configuration is lost or normalised: two
    configurations that make the same client are the same in host name, user
    name, password and client id. *)
Theorem constructor_inj
    (library_headers : gmap string value) (config1 config2 : Config) :
  constructor library_headers config1 = constructor library_headers config2 →
  config1 = config2.
Proof.
  intros H.
  assert (config1.(hostname) = config2.(hostname)) as Hh.
  { apply (f_equal (λ s, s.(http).(defaults).(baseURL))) in H. simpl in H.
    apply (inj _) in H. by apply app_inj_r in H. }
  assert (config1.(username) = config2.(username)) as Hu.
  { by apply (f_equal (λ s, s.(http).(defaults).(auth).(auth_username))) in H. }
  assert (config1.(password) = config2.(password)) as Hp.
  { by apply (f_equal (λ s, s.(http).(defaults).(auth).(auth_password))) in H. }
  assert (config1.(clientId) = config2.(clientId)) as Hc.
  { apply (f_equal (λ s, s.(http).(defaults).(headers) !! "x-dw-client-id")) in H.
    simpl in H.
    rewrite !(lookup_union_Some_l _ _ _ _ (lookup_singleton_eq _ _)) in H.
    by injection H. }
  destruct config1, config2; simpl in *; by subst.
Qed.

Lemma constructor_inj_witness : mockConfig = mockConfig.
Proof. exact (constructor_inj ∅ mockConfig mockConfig eq_refl). Defined.
